(** * bag_validate_upload_linux.py: bag, validate and upload through apt-cmd

    A shallow embedding of [sample-python-scripts/bag_validate_upload_linux.py]
    and the properties of its job loop.

    The script builds three shell command lines per job by string
    concatenation, runs them with [subprocess.run], and prints a status line
    after each one.  Its effects are: two assignments to [os.environ], the
    subprocess calls, and the calls of [print].  They are modelled by a state
    (the process environment and the trace of effects so far) threaded through
    a small state-and-exception monad.  What a child process does is not part
    of the script: it is a parameter, the [World]. *)

From Stdlib Require Import ZArith Ascii String.
From stdpp Require Import base tactics option list gmap strings.

Local Open Scope string_scope.
Local Open Scope list_scope.

(** ** Python's string operations used by the script *)

Module Py.

(** [s[::-1]] *)
Definition reversed (s : string) : string := String.rev s.

(** [s.startswith(sub)] *)
Fixpoint startswith (sub s : string) : bool :=
  match sub, s with
  | EmptyString, _ => true
  | String _ _, EmptyString => false
  | String a sub', String b s' => if Ascii.eqb a b then startswith sub' s' else false
  end.

(** [s.find(sub)], counting from [i]: the lowest index where [sub] occurs,
    [-1] when it does not occur. *)
Fixpoint find_from (i : Z) (sub s : string) : Z :=
  if startswith sub s then i
  else match s with
       | EmptyString => (-1)%Z
       | String _ s' => find_from (i + 1)%Z sub s'
       end.

Definition find (s sub : string) : Z := find_from 0%Z sub s.

(** The string without its first [n] characters. *)
Fixpoint skip (n : nat) (s : string) : string :=
  match n, s with
  | O, _ => s
  | S _, EmptyString => EmptyString
  | S n', String _ s' => skip n' s'
  end.

(** [s[start::]]: a negative [start] counts from the end, and an index out
    of range is clipped to the string. *)
Definition slice_from (s : string) (start : Z) : string :=
  let len := Z.of_nat (String.length s) in
  let lo := if (start <? 0)%Z then Z.max (len + start) 0 else Z.min start len in
  skip (Z.to_nat lo) s.

(** Truth value of an [int]: every value but [0] is true. *)
Definition truthy (n : Z) : bool := negb (n =? 0)%Z.

(** [fmt.format(arg)] for a format string with automatic fields [{}]: the
    first field is replaced by the argument. *)
Fixpoint format (fmt arg : string) : string :=
  match fmt with
  | EmptyString => EmptyString
  | String a fmt' =>
      match fmt' with
      | String b rest =>
          if (Ascii.eqb a "{" && Ascii.eqb b "}")%bool then arg +:+ rest
          else String a (format fmt' arg)
      | EmptyString => String a EmptyString
      end
  end.

(** [str(x)] of a string. *)
Definition str (s : string) : string := s.

End Py.

(** ** Configuration: the constants of lines 8-33 *)

(** A job is a dictionary; the script reads the keys ["source_dir"],
    ["title"] and ["access"]. *)
Abbreviation dict := (gmap string string).

Record Config := {
  bucket_name : string;
  aws_access_key : string;
  aws_secret_key : string;
  output_dir : string;
  profile : string;
  manifest_algs : string;
  source_organization : string;
  storage_option : string;
  jobs : list dict
}.

(** The values the repository ships. *)
Definition test_bag_1 : dict :=
  {[ "source_dir" := "/home/emory/aptrust/testing_files/testing_input/test_bag_1";
     "title" := "Bag 1"; "access" := "Institution" ]}.

Definition shipped_jobs : list dict :=
  [ test_bag_1;
    {[ "source_dir" := "/home/emory/aptrust/testing_files/testing_input/test_bag_2";
       "title" := "Bag 2"; "access" := "Consortia" ]};
    {[ "source_dir" := "/home/emory/aptrust/testing_files/testing_input/test_bag_3";
       "title" := "Bag 2"; "access" := "Consortia" ]} ].

Definition shipped : Config := {|
  bucket_name := "aptrust.receiving.test.acr7d.edu";
  aws_access_key := "";
  aws_secret_key := "";
  output_dir := "/home/emory/aptrust/testing_files/testing_output";
  profile := "aptrust";
  manifest_algs := "md5,sha256";
  source_organization := "College";
  storage_option := "Standard";
  jobs := shipped_jobs
|}.

(** ** Flag strings: lines 37-41

    Lines 38, 39 and 41 bind the names [manifest_algs], [source_organization]
    and [storage_option] again; the new values carry a prime here.  [profile]
    and [output_dir] keep their first value. *)

Definition profile_full (c : Config) : string := " --profile=" +:+ profile c.
Definition manifest_algs' (c : Config) : string := " --manifest-algs=" +:+ manifest_algs c.
Definition source_organization' (c : Config) : string :=
  " --tags='bag-info.txt/Source-Organization=" +:+ source_organization c +:+ "'".
Definition output_file (c : Config) : string := " --output-file=" +:+ output_dir c +:+ "/".
Definition storage_option' (c : Config) : string :=
  " --tags='aptrust-info.txt/Storage-Option=" +:+ storage_option c +:+ "'".

(** ** Strings of the loop body: lines 47-53, 60 and 68

    The expressions of the body as functions of the values read from the
    job's dictionary, for the statements below; [loop_body] holds them as the
    source does, and [loop_body_ok] relates the two. *)

Definition title (bag_title : string) : string :=
  " --tags='aptrust-info.txt/Title=" +:+ bag_title +:+ "'".
Definition access (bag_access : string) : string :=
  " --tags='aptrust-info.txt/Access=" +:+ bag_access +:+ "'".
Definition bag_dir (source_dir : string) : string := " --bag-dir=" +:+ source_dir.
Definition index_slash (source_dir : string) : Z := Py.find (Py.reversed source_dir) "/".
Definition bag_name (source_dir : string) : string :=
  Py.slice_from source_dir (- index_slash source_dir)%Z.

Definition create_command (c : Config) (bag_title bag_access source_dir : string) : string :=
  "apt-cmd bag create" +:+ profile_full c +:+ manifest_algs' c +:+ output_file c
    +:+ bag_name source_dir +:+ ".tar" +:+ bag_dir source_dir +:+ source_organization' c
    +:+ title bag_title +:+ access bag_access +:+ storage_option' c.

(** The double quote character, which line 68 writes inside single quotes. *)
Definition dquote : string := String "034"%char EmptyString.

Definition validate_command (c : Config) (source_dir : string) : string :=
  "apt-cmd bag validate -p " +:+ profile c +:+ " " +:+ output_dir c +:+ "/"
    +:+ bag_name source_dir +:+ ".tar".

Definition upload_command (c : Config) (source_dir : string) : string :=
  "apt-cmd s3 upload --host=s3.amazonaws.com --bucket=" +:+ dquote
    +:+ Py.str (bucket_name c) +:+ dquote +:+ " " +:+ output_dir c +:+ "/"
    +:+ bag_name source_dir +:+ ".tar".


(** ** Effects

    [subprocess.run(cmd, shell=True, capture_output=True, text=True)] returns
    a [CompletedProcess]; of its fields the script reads [returncode] only.
    The model takes the call to return: a shell that cannot be started is
    outside it. *)

Record CompletedProcess := {
  args : string;
  returncode : Z;
  stdout : string;
  stderr : string
}.

(** What the script does to its surroundings, in the order it does it. *)
Inductive event :=
  | EvSetenv (key value : string)
  | EvRun (cmd : string) (env : dict) (result : CompletedProcess)
  | EvPrint (line : string).

Record State := {
  environ : dict;
  trace : list event
}.

(** The only exception the script's own operations can raise: a job
    dictionary without one of the three keys. *)
Inductive exn := KeyError (key : string).

Inductive outcome (A : Type) :=
  | Returned (a : A)
  | Raised (e : exn).
Arguments Returned {A} a.
Arguments Raised {A} e.

(** The child processes: what the [n]-th subprocess of the run answers, given
    its command line and the environment it inherits. *)
Record World := {
  respond : nat -> string -> dict -> Z * string * string
}.

Definition is_setenv (e : event) : bool :=
  match e with EvSetenv _ _ => true | _ => false end.

(** The lines printed, the command lines run and the return codes received,
    each in order. *)
Fixpoint console (t : list event) : list string :=
  match t with
  | [] => []
  | EvPrint line :: t' => line :: console t'
  | _ :: t' => console t'
  end.
Fixpoint commands (t : list event) : list string :=
  match t with
  | [] => []
  | EvRun cmd _ _ :: t' => cmd :: commands t'
  | _ :: t' => commands t'
  end.
Fixpoint returncodes (t : list event) : list Z :=
  match t with
  | [] => []
  | EvRun _ _ r :: t' => returncode r :: returncodes t'
  | _ :: t' => returncodes t'
  end.

(** Subprocess calls made so far. *)
Definition ncalls (t : list event) : nat := length (commands t).

Definition M (A : Type) : Type := State -> outcome A * State.

Definition ret {A} (a : A) : M A := fun st => (Returned a, st).
Definition bind {A B} (m : M A) (k : A -> M B) : M B :=
  fun st =>
    match m st with
    | (Returned a, st') => k a st'
    | (Raised e, st') => (Raised e, st')
    end.
Definition raise {A} (e : exn) : M A := fun st => (Raised e, st).

Declare Scope py_scope.
Delimit Scope py_scope with py.
Notation "x <- m ;; k" := (bind m (fun x => k))
  (at level 20, m at level 99, k at level 200, only parsing) : py_scope.
Notation "m ;; k" := (bind m (fun _ => k))
  (at level 100, k at level 200, only parsing, right associativity) : py_scope.

Definition emit (e : event) (st : State) : State :=
  {| environ := environ st; trace := trace st ++ [e] |}.

(** [d[key]] *)
Definition getitem (d : dict) (key : string) : M string :=
  match d !! key with
  | Some v => ret v
  | None => raise (KeyError key)
  end.

(** [os.environ[key] = value] *)
Definition setenv (key value : string) : M unit :=
  fun st =>
    (Returned tt,
     {| environ := <[key := value]> (environ st);
        trace := trace st ++ [EvSetenv key value] |}).

(** [print(line)] *)
Definition print (line : string) : M unit :=
  fun st => (Returned tt, emit (EvPrint line) st).

(** The [CompletedProcess] of the [n]-th subprocess call. *)
Definition completed (W : World) (n : nat) (cmd : string) (env : dict) : CompletedProcess :=
  let '(rc, out, err) := respond W n cmd env in
  {| args := cmd; returncode := rc; stdout := out; stderr := err |}.

Section Script.

Context (W : World).

(** [subprocess.run(cmd, shell=True, capture_output=True, text=True)]: the
    child inherits the environment of the moment. *)
Definition subprocess_run (cmd : string) : M CompletedProcess :=
  fun st =>
    let result := completed W (ncalls (trace st)) cmd (environ st) in
    (Returned result, emit (EvRun cmd (environ st) result) st).

(** Lines 47-75, the body of [for bag in jobs].  The [continue] of line 64
    ends the body. *)
Definition loop_body (c : Config) (bag : dict) : M unit :=
  (bag_title <- getitem bag "title" ;;
   let title := title bag_title in
   bag_access <- getitem bag "access" ;;
   let access := access bag_access in
   source_dir <- getitem bag "source_dir" ;;
   let bag_dir := bag_dir source_dir in
   source_dir1 <- getitem bag "source_dir" ;;
   let index_slash := Py.find (Py.reversed source_dir1) "/" in
   source_dir2 <- getitem bag "source_dir" ;;
   let bag_name := Py.slice_from source_dir2 (- index_slash)%Z in
   let create_command :=
     "apt-cmd bag create" +:+ profile_full c +:+ manifest_algs' c +:+ output_file c
       +:+ bag_name +:+ ".tar" +:+ bag_dir +:+ source_organization' c
       +:+ title +:+ access +:+ storage_option' c in
   create <- subprocess_run create_command ;;
   (if Py.truthy (returncode create)
    then print (Py.format "ERROR CREATING: {}" bag_name)
    else print (Py.format "Bagged: {}" bag_name)) ;;
   let validate_command :=
     "apt-cmd bag validate -p " +:+ profile c +:+ " " +:+ output_dir c +:+ "/"
       +:+ bag_name +:+ ".tar" in
   validate <- subprocess_run validate_command ;;
   if Py.truthy (returncode validate)
   then print (Py.format "ERROR VALIDATING: {}" bag_name)
   else
     (print (Py.format "Validated: {}" bag_name) ;;
      let upload_command :=
        "apt-cmd s3 upload --host=s3.amazonaws.com --bucket=" +:+ dquote
          +:+ Py.str (bucket_name c) +:+ dquote +:+ " " +:+ output_dir c +:+ "/"
          +:+ bag_name +:+ ".tar" in
      upload <- subprocess_run upload_command ;;
      (if Py.truthy (returncode upload)
       then print (Py.format "ERROR UPLOADING: {}" bag_name)
       else print (Py.format "Uploaded: {}" bag_name)) ;;
      print (Py.format "Bagged, Validated, Uploaded: {}" bag_name)))%py.

(** [for x in l: body] *)
Fixpoint for_each {A} (body : A -> M unit) (l : list A) : M unit :=
  match l with
  | [] => ret tt
  | x :: l' => (body x ;; for_each body l')%py
  end.

(** The whole module: lines 43-75. *)
Definition script (c : Config) : M unit :=
  (setenv "APTRUST_AWS_KEY" (aws_access_key c) ;;
   setenv "APTRUST_AWS_SECRET" (aws_secret_key c) ;;
   for_each (loop_body c) (jobs c))%py.

End Script.

(** A run starts from the environment the script was started in, with no
    effect yet. *)
Definition start (env : dict) : State := {| environ := env; trace := [] |}.

(** A world given by the return codes of its subprocesses in the order of
    the calls ([0] once the list is used up); the children print nothing. *)
Definition answers (rcs : list Z) : World :=
  {| respond := fun n _ _ => (nth n rcs 0%Z, "", "") |}.

(** A world with the return codes of [answers rcs] whose children write to
    their standard output and standard error. *)
Definition noisy (rcs : list Z) : World :=
  {| respond := fun n cmd _ => (nth n rcs 0%Z, "ran " +:+ cmd, "warning") |}.

(** The world in which every subprocess succeeds. *)
Definition all_ok : World := answers [].

(** ** The three subprocess calls of one job

    From a state [st], the body's calls are the next three of the run, in the
    order create, validate, upload; the environment is the one of [st], as
    the body never assigns to it. *)

Section Job.

Context (W : World) (c : Config) (bag_title bag_access source_dir : string) (st : State).

Definition create_result : CompletedProcess :=
  completed W (ncalls (trace st))
    (create_command c bag_title bag_access source_dir) (environ st).
Definition validate_result : CompletedProcess :=
  completed W (S (ncalls (trace st))) (validate_command c source_dir) (environ st).
Definition upload_result : CompletedProcess :=
  completed W (S (S (ncalls (trace st)))) (upload_command c source_dir) (environ st).

Definition create_line : string :=
  if Py.truthy (returncode create_result)
  then "ERROR CREATING: " +:+ bag_name source_dir
  else "Bagged: " +:+ bag_name source_dir.
Definition upload_line : string :=
  if Py.truthy (returncode upload_result)
  then "ERROR UPLOADING: " +:+ bag_name source_dir
  else "Uploaded: " +:+ bag_name source_dir.

(** The effects of one pass through the body. *)
Definition job_trace : list event :=
  [ EvRun (create_command c bag_title bag_access source_dir) (environ st) create_result;
    EvPrint create_line;
    EvRun (validate_command c source_dir) (environ st) validate_result ]
  ++ if Py.truthy (returncode validate_result)
     then [ EvPrint ("ERROR VALIDATING: " +:+ bag_name source_dir) ]
     else [ EvPrint ("Validated: " +:+ bag_name source_dir);
            EvRun (upload_command c source_dir) (environ st) upload_result;
            EvPrint upload_line;
            EvPrint ("Bagged, Validated, Uploaded: " +:+ bag_name source_dir) ].

End Job.

(** The state after more effects. *)
Definition extend (st : State) (evs : list event) : State :=
  {| environ := environ st; trace := trace st ++ evs |}.

(** A job the body can read: the three keys are there. *)
Definition job_ok (bag : dict) : Prop :=
  is_Some (bag !! "title") /\ is_Some (bag !! "access") /\ is_Some (bag !! "source_dir").

#[global] Instance job_ok_dec (bag : dict) : Decision (job_ok bag).
Proof. unfold job_ok. apply _. Defined.

(** ** Notions of the specification *)

(** The character [a] occurs in [s]. *)
Fixpoint has_char (a : ascii) (s : string) : bool :=
  match s with
  | EmptyString => false
  | String b s' => Ascii.eqb a b || has_char a s'
  end.

(** The last path segment in the specification's words, "the substring
    after the final '/'"; a path without '/' is its own last segment. *)
Fixpoint last_segment (path : string) : string :=
  match path with
  | EmptyString => EmptyString
  | String a rest =>
      if has_char "/" rest then last_segment rest
      else if Ascii.eqb a "/" then rest else path
  end.

(** [sub] occurs in [s] (Python's [sub in s]). *)
Definition occurs (sub s : string) : Prop :=
  exists pre post, s = pre +:+ sub +:+ post.

(** The number of places in [s] at which [sub] starts. *)
Fixpoint occurrences (sub s : string) : nat :=
  (if Py.startswith sub s then 1 else 0)
  + match s with
    | EmptyString => 0
    | String _ s' => occurrences sub s'
    end.

(** The values that enter the create command of a job. *)
Definition create_values (c : Config) (bag_title bag_access source_dir : string) : list string :=
  [ profile c; manifest_algs c; output_dir c; source_dir; source_organization c;
    bag_title; bag_access; storage_option c ].

(** The tar file of a job in the specification's words: the configured
    output directory, "/", the bag name and ".tar". *)
Definition tar_path (c : Config) (source_dir : string) : string :=
  output_dir c +:+ "/" +:+ bag_name source_dir +:+ ".tar".

(** A job whose title closes the quote of its tag and goes on with a flag. *)
Definition quoted_title_job : dict :=
  {[ "source_dir" := "/home/emory/aptrust/testing_files/testing_input/test_bag_1";
     "title" := "Bag 1' --bag-dir=/tmp '"; "access" := "Institution" ]}.

(** The three steps of a job and the console line that tells the outcome
    of a step. *)
Inductive step := Create | Validate | Upload.

Definition status_line (name : string) (s : step) (rc : Z) : string :=
  match s, Py.truthy rc with
  | Create, true => "ERROR CREATING: " +:+ name
  | Create, false => "Bagged: " +:+ name
  | Validate, true => "ERROR VALIDATING: " +:+ name
  | Validate, false => "Validated: " +:+ name
  | Upload, true => "ERROR UPLOADING: " +:+ name
  | Upload, false => "Uploaded: " +:+ name
  end.

(** The specification's console output, read on the effects of one job:
    one line per step executed and no other line. *)
Definition one_line_per_step (evs : list event) : Prop :=
  length (console evs) = ncalls evs.

(** The commands of one visit of a job: create and validate, and then the
    upload or no further command. *)
Definition job_commands (c : Config) (bag : dict) (cmds : list string) : Prop :=
  exists t a sd,
    bag !! "title" = Some t /\ bag !! "access" = Some a /\ bag !! "source_dir" = Some sd
    /\ (cmds = [ create_command c t a sd; validate_command c sd ]
        \/ cmds = [ create_command c t a sd; validate_command c sd; upload_command c sd ]).

(** An effect of the loop under the environment [env]: no assignment to
    the environment, and children that inherit [env]. *)
Definition loop_event (env : dict) (e : event) : Prop :=
  match e with
  | EvSetenv _ _ => False
  | EvRun _ env' _ => env' = env
  | EvPrint _ => True
  end.

(** The first key of line 47, 48 and 49 that the job does not have. *)
Definition first_missing_key (bag : dict) : option string :=
  match bag !! "title", bag !! "access", bag !! "source_dir" with
  | None, _, _ => Some "title"
  | Some _, None, _ => Some "access"
  | Some _, Some _, None => Some "source_dir"
  | Some _, Some _, Some _ => None
  end.

(** Two configurations that differ at most in the two credentials. *)
Definition same_but_credentials (c1 c2 : Config) : Prop :=
  bucket_name c1 = bucket_name c2 /\ output_dir c1 = output_dir c2
  /\ profile c1 = profile c2 /\ manifest_algs c1 = manifest_algs c2
  /\ source_organization c1 = source_organization c2
  /\ storage_option c1 = storage_option c2 /\ jobs c1 = jobs c2.

(** The texts of the seven calls of [print], up to their field. *)
Definition messages : list string :=
  [ "ERROR CREATING: "; "Bagged: "; "ERROR VALIDATING: "; "Validated: ";
    "ERROR UPLOADING: "; "Uploaded: "; "Bagged, Validated, Uploaded: " ].

(** A line the script can print for one of the jobs [l]: one of the seven
    messages with the bag name of the job. *)
Definition status_of (l : list dict) (line : string) : Prop :=
  exists message bag sd,
    In message messages /\ In bag l /\ bag !! "source_dir" = Some sd
    /\ line = message +:+ bag_name sd.

(** A job without its ["access"] key. *)
Definition no_access_job : dict :=
  {[ "source_dir" := "/home/emory/aptrust/testing_files/testing_input/test_bag_2";
     "title" := "Bag 2" ]}.

(** The shipped configuration with credentials filled in. *)
Definition with_credentials : Config := {|
  bucket_name := bucket_name shipped;
  aws_access_key := "AKIAEXAMPLE";
  aws_secret_key := "secret/example";
  output_dir := output_dir shipped;
  profile := profile shipped;
  manifest_algs := manifest_algs shipped;
  source_organization := source_organization shipped;
  storage_option := storage_option shipped;
  jobs := jobs shipped
|}.

(** * Lemmas *)

(** ** Strings *)

Lemma append_cons (a : ascii) (s1 s2 : string) : String a s1 +:+ s2 = String a (s1 +:+ s2).
Proof. reflexivity. Qed.

Lemma append_nil_l (s : string) : "" +:+ s = s.
Proof. reflexivity. Qed.

Lemma append_nil_r (s : string) : s +:+ "" = s.
Proof. induction s as [|a s IH]; [reflexivity|]. by rewrite append_cons, IH. Qed.

Lemma append_assoc (s1 s2 s3 : string) : (s1 +:+ s2) +:+ s3 = s1 +:+ (s2 +:+ s3).
Proof. induction s1 as [|a s1 IH]; [reflexivity|]. by rewrite !append_cons, IH. Qed.

Lemma length_append (s1 s2 : string) :
  String.length (s1 +:+ s2) = (String.length s1 + String.length s2)%nat.
Proof.
  induction s1 as [|a s1 IH]; [reflexivity|].
  rewrite append_cons. cbn [String.length]. by rewrite IH.
Qed.

(** ** Traces *)

Lemma console_app (t1 t2 : list event) : console (t1 ++ t2) = console t1 ++ console t2.
Proof.
  induction t1 as [|e t1 IH]; [reflexivity|].
  destruct e; cbn [console app]; rewrite ?IH; reflexivity.
Qed.

Lemma commands_app (t1 t2 : list event) : commands (t1 ++ t2) = commands t1 ++ commands t2.
Proof.
  induction t1 as [|e t1 IH]; [reflexivity|].
  destruct e; cbn [commands app]; rewrite ?IH; reflexivity.
Qed.

Lemma ncalls_app (t1 t2 : list event) : ncalls (t1 ++ t2) = (ncalls t1 + ncalls t2)%nat.
Proof. unfold ncalls. by rewrite commands_app, length_app. Qed.

Lemma returncodes_app (t1 t2 : list event) :
  returncodes (t1 ++ t2) = returncodes t1 ++ returncodes t2.
Proof.
  induction t1 as [|e t1 IH]; [reflexivity|].
  destruct e; cbn [returncodes app]; rewrite ?IH; reflexivity.
Qed.

Lemma extend_nil (st : State) : extend st [] = st.
Proof. destruct st as [env t]. unfold extend. cbn. by rewrite app_nil_r. Qed.

Lemma extend_extend (st : State) (e1 e2 : list event) :
  extend (extend st e1) e2 = extend st (e1 ++ e2).
Proof. unfold extend. cbn. by rewrite app_assoc. Qed.

(** ** The loop body, evaluated *)

Lemma subprocess_run_eq (W : World) (cmd : string) (st : State) :
  subprocess_run W cmd st =
    (Returned (completed W (ncalls (trace st)) cmd (environ st)),
     extend st [EvRun cmd (environ st) (completed W (ncalls (trace st)) cmd (environ st))]).
Proof. reflexivity. Qed.

Lemma print_eq (line : string) (st : State) :
  print line st = (Returned tt, extend st [EvPrint line]).
Proof. reflexivity. Qed.

(** The six status messages end in their only field. *)
Ltac format_literal :=
  intros; cbv [Py.format Ascii.eqb Bool.eqb andb]; rewrite append_nil_r; reflexivity.

Lemma format_error_creating (b : string) :
  Py.format "ERROR CREATING: {}" b = "ERROR CREATING: " +:+ b.
Proof. format_literal. Qed.
Lemma format_bagged (b : string) : Py.format "Bagged: {}" b = "Bagged: " +:+ b.
Proof. format_literal. Qed.
Lemma format_error_validating (b : string) :
  Py.format "ERROR VALIDATING: {}" b = "ERROR VALIDATING: " +:+ b.
Proof. format_literal. Qed.
Lemma format_validated (b : string) : Py.format "Validated: {}" b = "Validated: " +:+ b.
Proof. format_literal. Qed.
Lemma format_error_uploading (b : string) :
  Py.format "ERROR UPLOADING: {}" b = "ERROR UPLOADING: " +:+ b.
Proof. format_literal. Qed.
Lemma format_uploaded (b : string) : Py.format "Uploaded: {}" b = "Uploaded: " +:+ b.
Proof. format_literal. Qed.
Lemma format_all_three (b : string) :
  Py.format "Bagged, Validated, Uploaded: {}" b = "Bagged, Validated, Uploaded: " +:+ b.
Proof. format_literal. Qed.

Lemma ncalls_run (t : list event) cmd env r : ncalls (t ++ [EvRun cmd env r]) = S (ncalls t).
Proof. rewrite ncalls_app. cbn. lia. Qed.

Lemma ncalls_print (t : list event) line : ncalls (t ++ [EvPrint line]) = ncalls t.
Proof. rewrite ncalls_app. cbn. lia. Qed.

Lemma print_if (b : bool) (x y : string) (st : State) :
  (if b then print x else print y) st = (Returned tt, extend st [EvPrint (if b then x else y)]).
Proof. by destruct b. Qed.

(** A job with its three keys: the body returns, and its effects are
    [job_trace]. *)
Lemma loop_body_ok (W : World) (c : Config) (bag : dict) (st : State) (t a sd : string) :
  bag !! "title" = Some t -> bag !! "access" = Some a -> bag !! "source_dir" = Some sd ->
  loop_body W c bag st = (Returned tt, extend st (job_trace W c t a sd st)).
Proof.
  intros Ht Ha Hsd.
  unfold loop_body, bind, getitem. rewrite Ht, Ha, Hsd. unfold ret.
  fold (index_slash sd). fold (bag_name sd). fold (bag_dir sd).
  fold (create_command c t a sd). fold (validate_command c sd). fold (upload_command c sd).
  rewrite format_error_creating, format_bagged, format_error_validating, format_validated,
    format_error_uploading, format_uploaded, format_all_three.
  rewrite subprocess_run_eq. fold (create_result W c t a sd st).
  rewrite print_if. fold (create_line W c t a sd st).
  rewrite subprocess_run_eq, !extend_extend.
  cbn [extend environ trace]. rewrite !ncalls_app. cbn [ncalls commands length app].
  rewrite Nat.add_1_r. fold (ncalls (trace st)). fold (validate_result W c sd st).
  unfold job_trace.
  destruct (Py.truthy (returncode (validate_result W c sd st))).
  - rewrite print_eq. unfold extend. cbn [environ trace]. by rewrite <- !app_assoc.
  - rewrite print_eq, subprocess_run_eq, !extend_extend.
    cbn [extend environ trace]. rewrite !ncalls_app. cbn [ncalls commands length app].
    replace (ncalls (trace st) + (2 + 0))%nat with (S (S (ncalls (trace st)))) by lia.
    fold (upload_result W c sd st).
    rewrite print_if. fold (upload_line W c sd st).
    rewrite print_eq. unfold extend. cbn [environ trace]. by rewrite <- !app_assoc.
Qed.

(** A job without one of its keys: the body raises [KeyError] before any
    effect. *)
Lemma loop_body_key_error (c : Config) (bag : dict) :
  ~ job_ok bag ->
  exists key, forall W st, loop_body W c bag st = (Raised (KeyError key), st).
Proof.
  intros Hbad. unfold loop_body, bind, getitem.
  destruct (bag !! "title") as [t|] eqn:Ht; [|by eexists].
  destruct (bag !! "access") as [a|] eqn:Ha; [|by eexists].
  destruct (bag !! "source_dir") as [sd|] eqn:Hsd; [|by eexists].
  destruct Hbad. unfold job_ok. rewrite Ht, Ha, Hsd. eauto.
Qed.

Lemma job_ok_lookup (bag : dict) :
  job_ok bag ->
  exists t a sd, bag !! "title" = Some t /\ bag !! "access" = Some a
                 /\ bag !! "source_dir" = Some sd.
Proof. intros ([t Ht] & [a Ha] & [sd Hsd]). eauto 7. Qed.

(** ** The loop *)

Lemma for_each_cons {A} (body : A -> M unit) (x : A) (l : list A) (st : State) :
  for_each body (x :: l) st =
    match body x st with
    | (Returned _, st') => for_each body l st'
    | (Raised e, st') => (Raised e, st')
    end.
Proof. reflexivity. Qed.

Lemma truthy_nonzero (n : Z) : n <> 0%Z -> Py.truthy n = true.
Proof. intros Hn. unfold Py.truthy. by destruct (Z.eqb_spec n 0). Qed.

Lemma truthy_zero (n : Z) : n = 0%Z -> Py.truthy n = false.
Proof. by intros ->. Qed.

(** ** The bag name *)

Lemma rev_app_append (s1 s2 acc : string) :
  String.rev_app (s1 +:+ s2) acc = String.rev_app s2 (String.rev_app s1 acc).
Proof.
  revert acc. induction s1 as [|a s1 IH]; intros acc; [reflexivity|].
  rewrite append_cons. cbn [String.rev_app]. apply IH.
Qed.

Lemma has_char_rev_app (a : ascii) (s acc : string) :
  has_char a (String.rev_app s acc) = has_char a s || has_char a acc.
Proof.
  revert acc. induction s as [|b s IH]; intros acc; [reflexivity|].
  cbn [String.rev_app has_char]. rewrite IH. cbn [has_char].
  destruct (Ascii.eqb a b), (has_char a s), (has_char a acc); reflexivity.
Qed.

Lemma length_rev_app (s acc : string) :
  String.length (String.rev_app s acc) = (String.length s + String.length acc)%nat.
Proof.
  revert acc. induction s as [|b s IH]; intros acc; [reflexivity|].
  cbn [String.rev_app String.length]. rewrite IH. cbn [String.length]. lia.
Qed.

Lemma rev_app_acc (s acc : string) :
  String.rev_app s acc = String.rev_app s "" +:+ acc.
Proof.
  revert acc. induction s as [|b s IH]; intros acc; [reflexivity|].
  cbn [String.rev_app]. rewrite (IH (String b acc)), (IH (String b "")).
  by rewrite append_assoc.
Qed.

(** [find] stops at the first '/' when none comes before it. *)
Lemma find_from_first (i : Z) (r q : string) :
  has_char "/" r = false ->
  Py.find_from i "/" (r +:+ String "/" q) = (i + Z.of_nat (String.length r))%Z.
Proof.
  revert i. induction r as [|b r IH]; intros i Hr.
  - rewrite append_nil_l. cbn [Py.find_from Py.startswith String.length].
    rewrite Ascii.eqb_refl. lia.
  - cbn [has_char] in Hr. apply orb_false_iff in Hr as [Hb Hr].
    rewrite append_cons. cbn [Py.find_from Py.startswith]. rewrite Hb.
    rewrite IH by done. cbn [String.length]. lia.
Qed.

(** Without a '/' [find] answers [-1]. *)
Lemma find_from_none (i : Z) (r : string) :
  has_char "/" r = false -> Py.find_from i "/" r = (-1)%Z.
Proof.
  revert i. induction r as [|b r IH]; intros i Hr; [reflexivity|].
  cbn [has_char] in Hr. apply orb_false_iff in Hr as [Hb Hr].
  cbn [Py.find_from Py.startswith]. rewrite Hb. by apply IH.
Qed.

Lemma skip_append (d x : string) : Py.skip (String.length d) (d +:+ x) = x.
Proof. induction d as [|b d IH]; [by destruct x|]. by rewrite append_cons. Qed.

Lemma last_segment_append (dir seg : string) :
  has_char "/" seg = false -> last_segment (dir +:+ String "/" seg) = seg.
Proof.
  intros Hseg. induction dir as [|b dir IH].
  - rewrite append_nil_l. cbn [last_segment]. by rewrite Hseg, Ascii.eqb_refl.
  - rewrite append_cons. cbn [last_segment].
    assert (has_char "/" (dir +:+ String "/" seg) = true) as ->; [|done].
    clear. induction dir as [|d dir IH]; [reflexivity|].
    rewrite append_cons. cbn [has_char]. rewrite IH. apply orb_true_r.
Qed.

(** Where the slice of lines 50-51 is right: the path has a '/' and does
    not end with it.  Then the bag name is what follows the final '/'. *)
Lemma bag_name_after_final_slash (dir seg : string) :
  has_char "/" seg = false -> seg <> "" ->
  bag_name (dir +:+ String "/" seg) = seg
  /\ last_segment (dir +:+ String "/" seg) = seg.
Proof.
  intros Hseg Hne. split; [|by apply last_segment_append].
  unfold bag_name, index_slash, Py.find, Py.reversed, String.rev.
  rewrite rev_app_append. cbn [String.rev_app].
  rewrite (rev_app_acc seg), find_from_first
    by (by rewrite has_char_rev_app, Hseg).
  rewrite length_rev_app. cbn [String.length].
  unfold Py.slice_from. rewrite length_append. cbn [String.length].
  destruct seg as [|b seg]; [done|]. cbn [String.length].
  destruct (Z.ltb_spec (- (0 + Z.of_nat (S (String.length seg) + 0))) 0); [|lia].
  replace (Z.to_nat _) with (String.length dir + 1)%nat by lia.
  replace (String.length dir + 1)%nat with (String.length (dir +:+ "/")).
  - change (String "/" (String b seg)) with ("/" +:+ String b seg).
    rewrite <- append_assoc. apply skip_append.
  - rewrite length_append. reflexivity.
Qed.

(** The three shipped jobs are of that form. *)
Lemma shipped_bag_names :
  Forall (fun bag : dict =>
            exists sd, bag !! "source_dir" = Some sd /\ bag_name sd = last_segment sd)
    shipped_jobs.
Proof. repeat constructor; eexists; split; reflexivity. Qed.

(** In every case the bag name is the path without some of its first
    characters. *)
Lemma bag_name_skip (sd : string) : exists n, bag_name sd = Py.skip n sd.
Proof. unfold bag_name, Py.slice_from. eauto. Qed.

(** ** Counting a flag in a command line *)

Section Occurrences.

Context (sub : string) (Hsub : sub <> "").

Lemma startswith_nil : Py.startswith sub "" = false.
Proof using Hsub. by destruct sub. Qed.

(** A character that is not in [sub] ends every attempt to match [sub]. *)
Lemma startswith_sep (c : ascii) (u v : string) :
  has_char c sub = false -> Py.startswith sub (u +:+ String c v) = Py.startswith sub u.
Proof using Type.
  clear Hsub. revert u. induction sub as [|a sub' IH]; intros u Hc; [reflexivity|].
  cbn [has_char] in Hc. apply orb_false_iff in Hc as [Hac Hc].
  destruct u as [|b u].
  - rewrite append_nil_l. cbn [Py.startswith]. by rewrite Ascii.eqb_sym, Hac.
  - rewrite append_cons. cbn [Py.startswith]. destruct (Ascii.eqb a b); [by apply IH|done].
Qed.

Lemma occurrences_nil : occurrences sub "" = 0%nat.
Proof using Hsub. cbn [occurrences]. by rewrite startswith_nil. Qed.

Lemma occurrences_sep (c : ascii) (u v : string) :
  has_char c sub = false ->
  occurrences sub (u +:+ String c v) = (occurrences sub u + occurrences sub v)%nat.
Proof using Hsub.
  intros Hc. induction u as [|b u IH].
  - rewrite occurrences_nil, append_nil_l. cbn [occurrences].
    rewrite <- (append_nil_l (String c v)), startswith_sep, startswith_nil by done.
    reflexivity.
  - rewrite append_cons. cbn [occurrences]. rewrite IH.
    rewrite <- append_cons, startswith_sep by done. lia.
Qed.

Lemma occurrences_miss (a : ascii) (s : string) :
  Py.startswith sub (String a s) = false -> occurrences sub (String a s) = occurrences sub s.
Proof using Type. intros H. cbn [occurrences]. by rewrite H. Qed.

Lemma occurrences_hit (a : ascii) (s : string) :
  Py.startswith sub (String a s) = true ->
  occurrences sub (String a s) = S (occurrences sub s).
Proof using Type. intros H. cbn [occurrences]. by rewrite H. Qed.

Lemma occurrences_skip (n : nat) (s : string) :
  (occurrences sub (Py.skip n s) <= occurrences sub s)%nat.
Proof using Type.
  revert n. induction s as [|a s IH]; intros [|n]; cbn [Py.skip]; try lia.
  specialize (IH n). cbn [occurrences]. lia.
Qed.

End Occurrences.

Lemma startswith_spec (sub s : string) :
  Py.startswith sub s = true <-> exists post, s = sub +:+ post.
Proof.
  revert s. induction sub as [|a sub IH]; intros s.
  - split; [intros _; by exists s | done].
  - destruct s as [|b s]; cbn [Py.startswith].
    + split; [done | by intros [post Hpost]].
    + destruct (Ascii.eqb_spec a b) as [->|Hab].
      * rewrite IH. split; intros [post Hpost]; exists post.
        -- by rewrite append_cons, Hpost.
        -- rewrite append_cons in Hpost. by injection Hpost.
      * split; [done|]. intros [post Hpost].
        rewrite append_cons in Hpost. injection Hpost as -> _. done.
Qed.

(** The two readings of "the text is in the string" agree. *)
Lemma occurs_occurrences (sub s : string) :
  occurs sub s <-> (0 < occurrences sub s)%nat.
Proof.
  split.
  - intros (pre & post & ->). induction pre as [|a pre IH].
    + rewrite append_nil_l.
      assert (Py.startswith sub (sub +:+ post) = true) as Hstart
        by (apply startswith_spec; eauto).
      destruct (sub +:+ post); cbn [occurrences]; rewrite Hstart; lia.
    + rewrite append_cons. cbn [occurrences]. lia.
  - induction s as [|a s IH]; cbn [occurrences].
    + destruct (Py.startswith sub "") eqn:Hstart; [|lia].
      apply startswith_spec in Hstart as [post Hpost]. intros _. by exists "", post.
    + destruct (Py.startswith sub (String a s)) eqn:Hstart.
      * apply startswith_spec in Hstart as [post Hpost]. intros _. by exists "", post.
      * intros Hpos. destruct IH as (pre & post & ->); [lia|].
        exists (String a pre), post. by rewrite append_cons.
Qed.

(** The create command as one concatenation. *)
Lemma create_command_flat (c : Config) (t a sd : string) :
  create_command c t a sd =
    "apt-cmd bag create --profile=" +:+ profile c
    +:+ " --manifest-algs=" +:+ manifest_algs c
    +:+ " --output-file=" +:+ output_dir c +:+ "/" +:+ bag_name sd
    +:+ ".tar --bag-dir=" +:+ sd
    +:+ " --tags='bag-info.txt/Source-Organization=" +:+ source_organization c
    +:+ "' --tags='aptrust-info.txt/Title=" +:+ t
    +:+ "' --tags='aptrust-info.txt/Access=" +:+ a
    +:+ "' --tags='aptrust-info.txt/Storage-Option=" +:+ storage_option c +:+ "'".
Proof.
  unfold create_command, profile_full, manifest_algs', output_file, bag_dir,
    source_organization', title, access, storage_option'.
  rewrite !append_assoc. reflexivity.
Qed.

(** Counting through a command line: a character of a literal either starts
    the flag or does not, and a value ends at a character the flag does not
    have. *)
Ltac count_flag :=
  repeat first
    [ rewrite append_cons
    | rewrite append_nil_l
    | rewrite occurrences_miss by reflexivity
    | rewrite occurrences_hit by reflexivity
    | rewrite occurrences_sep by (reflexivity || discriminate)
    | rewrite occurrences_nil by discriminate ].

Lemma occurrences_create_command (c : Config) (t a sd : string) :
  occurrences "--bag-dir" (create_command c t a sd) =
    (1 + occurrences "--bag-dir" (profile c) + occurrences "--bag-dir" (manifest_algs c)
     + occurrences "--bag-dir" (output_dir c) + occurrences "--bag-dir" (bag_name sd)
     + occurrences "--bag-dir" sd + occurrences "--bag-dir" (source_organization c)
     + occurrences "--bag-dir" t + occurrences "--bag-dir" a
     + occurrences "--bag-dir" (storage_option c))%nat.
Proof.
  rewrite create_command_flat. count_flag. lia.
Qed.

(** ** Invariants of the loop *)

Lemma job_trace_loop_events (W : World) (c : Config) (t a sd : string) (st : State) :
  Forall (loop_event (environ st)) (job_trace W c t a sd st).
Proof.
  unfold job_trace.
  destruct (Py.truthy (returncode (validate_result W c sd st)));
    repeat constructor.
Qed.

Lemma job_trace_commands (W : World) (c : Config) (bag : dict) (t a sd : string) (st : State) :
  bag !! "title" = Some t -> bag !! "access" = Some a -> bag !! "source_dir" = Some sd ->
  job_commands c bag (commands (job_trace W c t a sd st)).
Proof.
  intros Ht Ha Hsd. exists t, a, sd. repeat (split; [done|]).
  unfold job_trace.
  destruct (Py.truthy (returncode (validate_result W c sd st))); cbn; auto.
Qed.

(** With readable jobs the loop returns, and the commands it ran are the
    visits of the jobs one after the other. *)
Lemma for_each_visits (W : World) (c : Config) (l : list dict) (st : State) :
  Forall job_ok l ->
  exists evs visits,
    for_each (loop_body W c) l st = (Returned tt, extend st evs)
    /\ commands evs = concat visits
    /\ Forall2 (job_commands c) l visits.
Proof.
  intros Hok. revert st. induction Hok as [|bag l Hbag _ IH]; intros st.
  - exists [], []. rewrite extend_nil. repeat split. constructor.
  - destruct (job_ok_lookup bag Hbag) as (t & a & sd & Ht & Ha & Hsd).
    destruct (IH (extend st (job_trace W c t a sd st))) as (evs & visits & Hrun & Hcmds & Hall).
    exists (job_trace W c t a sd st ++ evs), (commands (job_trace W c t a sd st) :: visits).
    rewrite for_each_cons, (loop_body_ok W c bag st t a sd Ht Ha Hsd), Hrun, extend_extend.
    split; [reflexivity|]. split.
    + by rewrite commands_app, Hcmds.
    + constructor; [by apply job_trace_commands | exact Hall].
Qed.

(** Whatever the jobs, the loop leaves the environment alone: all its
    effects are prints and subprocess calls under the environment it
    started with. *)
Lemma for_each_loop_events (W : World) (c : Config) (l : list dict) (st : State) :
  exists o evs,
    for_each (loop_body W c) l st = (o, extend st evs)
    /\ Forall (loop_event (environ st)) evs.
Proof.
  revert st. induction l as [|bag l IH]; intros st.
  - exists (Returned tt), []. rewrite extend_nil. split; [reflexivity | constructor].
  - rewrite for_each_cons. destruct (decide (job_ok bag)) as [Hbag|Hbag].
    + destruct (job_ok_lookup bag Hbag) as (t & a & sd & Ht & Ha & Hsd).
      destruct (IH (extend st (job_trace W c t a sd st))) as (o & evs & Hrun & Hall).
      exists o, (job_trace W c t a sd st ++ evs).
      rewrite (loop_body_ok W c bag st t a sd Ht Ha Hsd), Hrun, extend_extend.
      split; [reflexivity|]. apply Forall_app. split; [apply job_trace_loop_events | exact Hall].
    + destruct (loop_body_key_error c bag Hbag) as [key Hraise]. rewrite Hraise.
      exists (Raised (KeyError key)), []. rewrite extend_nil. split; [reflexivity | constructor].
Qed.

(** Two runs of the loop over the same jobs, in any two worlds and from any
    two states: when the return codes they receive are the same, so are the
    lines they print and the way they end. *)
Lemma for_each_console (W1 W2 : World) (c : Config) (l : list dict) (st1 st2 : State) :
  exists o1 o2 evs1 evs2,
    for_each (loop_body W1 c) l st1 = (o1, extend st1 evs1)
    /\ for_each (loop_body W2 c) l st2 = (o2, extend st2 evs2)
    /\ (returncodes evs1 = returncodes evs2 -> console evs1 = console evs2 /\ o1 = o2).
Proof.
  revert st1 st2. induction l as [|bag l IH]; intros st1 st2.
  - exists (Returned tt), (Returned tt), [], []. rewrite !extend_nil. auto.
  - rewrite !for_each_cons. destruct (decide (job_ok bag)) as [Hbag|Hbag].
    + destruct (job_ok_lookup bag Hbag) as (t & a & sd & Ht & Ha & Hsd).
      destruct (IH (extend st1 (job_trace W1 c t a sd st1))
                   (extend st2 (job_trace W2 c t a sd st2)))
        as (o1 & o2 & evs1 & evs2 & Hrun1 & Hrun2 & Hsame).
      exists o1, o2, (job_trace W1 c t a sd st1 ++ evs1), (job_trace W2 c t a sd st2 ++ evs2).
      rewrite (loop_body_ok W1 c bag st1 t a sd Ht Ha Hsd), Hrun1, extend_extend.
      rewrite (loop_body_ok W2 c bag st2 t a sd Ht Ha Hsd), Hrun2, extend_extend.
      split; [reflexivity|]. split; [reflexivity|].
      rewrite !returncodes_app, !console_app. unfold job_trace, create_line, upload_line.
      destruct (Py.truthy (returncode (validate_result W1 c sd st1))) eqn:Hv1,
               (Py.truthy (returncode (validate_result W2 c sd st2))) eqn:Hv2;
        cbn [app returncodes console]; intros Hrc; simplify_eq;
        repeat match goal with
               | H : returncode _ = returncode _ |- _ => rewrite H in *
               end;
        try congruence.
      * destruct Hsame as [-> ->]; done.
      * destruct Hsame as [-> ->]; done.
    + destruct (loop_body_key_error c bag Hbag) as [key Hraise]. rewrite !Hraise.
      exists (Raised (KeyError key)), (Raised (KeyError key)), [], [].
      rewrite !extend_nil. auto.
Qed.

(** The script is the two assignments and then the loop. *)
Lemma script_eq (W : World) (c : Config) (env : dict) :
  script W c (start env) =
    for_each (loop_body W c) (jobs c)
      {| environ := <["APTRUST_AWS_SECRET" := aws_secret_key c]>
                      (<["APTRUST_AWS_KEY" := aws_access_key c]> env);
         trace := [ EvSetenv "APTRUST_AWS_KEY" (aws_access_key c);
                    EvSetenv "APTRUST_AWS_SECRET" (aws_secret_key c) ] |}.
Proof. reflexivity. Qed.

(** * The claims *)

(** C1. For every job whose validate subprocess returns 0, the body runs the
    upload command, prints one line for its outcome and then prints
    "Bagged, Validated, Uploaded: <bag_name>", whatever the upload returned:
    after a non-zero return code the line before the final message is
    "ERROR UPLOADING: <bag_name>", and the final message is printed all the
    same. *)
Theorem final_message_whatever_upload_returns
    (W : World) (c : Config) (bag : dict) (st : State) (t a sd : string) :
  bag !! "title" = Some t -> bag !! "access" = Some a -> bag !! "source_dir" = Some sd ->
  returncode (validate_result W c sd st) = 0%Z ->
  exists before line,
    loop_body W c bag st =
      (Returned tt,
       extend st (before ++
                  [ EvRun (upload_command c sd) (environ st) (upload_result W c sd st);
                    EvPrint line;
                    EvPrint ("Bagged, Validated, Uploaded: " +:+ bag_name sd) ]))
    /\ In (EvRun (validate_command c sd) (environ st) (validate_result W c sd st)) before
    /\ (returncode (upload_result W c sd st) <> 0%Z ->
        line = "ERROR UPLOADING: " +:+ bag_name sd)
    /\ (returncode (upload_result W c sd st) = 0%Z ->
        line = "Uploaded: " +:+ bag_name sd).
Proof.
  intros Ht Ha Hsd Hv.
  exists [ EvRun (create_command c t a sd) (environ st) (create_result W c t a sd st);
           EvPrint (create_line W c t a sd st);
           EvRun (validate_command c sd) (environ st) (validate_result W c sd st);
           EvPrint ("Validated: " +:+ bag_name sd) ].
  exists (upload_line W c sd st).
  split; [|split; [|split]].
  - rewrite (loop_body_ok W c bag st t a sd Ht Ha Hsd).
    unfold job_trace. by rewrite (truthy_zero _ Hv).
  - cbn. tauto.
  - intros Hu. unfold upload_line. by rewrite (truthy_nonzero _ Hu).
  - intros Hu. unfold upload_line. by rewrite (truthy_zero _ Hu).
Qed.

(** The first shipped job, validated and then refused by the bucket. *)
Lemma final_message_whatever_upload_returns_witness :
  exists before line,
    loop_body (answers [0; 0; 1]%Z) shipped test_bag_1 (start ∅) =
      (Returned tt,
       extend (start ∅)
         (before ++
          [ EvRun (upload_command shipped "/home/emory/aptrust/testing_files/testing_input/test_bag_1")
              ∅ (upload_result (answers [0; 0; 1]%Z) shipped
                   "/home/emory/aptrust/testing_files/testing_input/test_bag_1" (start ∅));
            EvPrint line;
            EvPrint "Bagged, Validated, Uploaded: test_bag_1" ]))
    /\ line = "ERROR UPLOADING: test_bag_1".
Proof.
  destruct (final_message_whatever_upload_returns (answers [0; 0; 1]%Z) shipped test_bag_1
              (start ∅) "Bag 1" "Institution"
              "/home/emory/aptrust/testing_files/testing_input/test_bag_1")
    as (before & line & Hrun & _ & Hfail & _); [reflexivity ..|].
  exists before, line. split; [exact Hrun | apply Hfail; discriminate].
Defined.

(** C2. For every job, if the validate subprocess returns a non-zero code,
    the body prints "ERROR VALIDATING: <bag_name>" last, its only subprocess
    calls are create and validate (the upload command is not run), and it
    ends normally.  The loop then goes on with the next job: when the job
    is the last of the list the loop returns, and when another job follows,
    the effects of the loop after the ERROR VALIDATING line are those of the
    body on that next job, its create call first. *)
Theorem validate_failure_skips_upload
    (W : World) (c : Config) (bag : dict) (st : State) (t a sd : string)
    (rest : list dict) :
  bag !! "title" = Some t -> bag !! "access" = Some a -> bag !! "source_dir" = Some sd ->
  returncode (validate_result W c sd st) <> 0%Z ->
  exists evs,
    loop_body W c bag st = (Returned tt, extend st evs)
    /\ evs = [ EvRun (create_command c t a sd) (environ st) (create_result W c t a sd st);
               EvPrint (create_line W c t a sd st);
               EvRun (validate_command c sd) (environ st) (validate_result W c sd st);
               EvPrint ("ERROR VALIDATING: " +:+ bag_name sd) ]
    /\ ~ In (upload_command c sd) (commands evs)
    /\ for_each (loop_body W c) (bag :: rest) st
       = for_each (loop_body W c) rest (extend st evs)
    /\ (rest = [] -> for_each (loop_body W c) (bag :: rest) st = (Returned tt, extend st evs))
    /\ (forall next rest' t' a' sd',
          rest = next :: rest' ->
          next !! "title" = Some t' -> next !! "access" = Some a' ->
          next !! "source_dir" = Some sd' ->
          exists o later,
            for_each (loop_body W c) (bag :: rest) st
              = (o, extend st (evs ++ job_trace W c t' a' sd' (extend st evs) ++ later))
            /\ head (job_trace W c t' a' sd' (extend st evs))
               = Some (EvRun (create_command c t' a' sd') (environ st)
                         (create_result W c t' a' sd' (extend st evs)))).
Proof.
  intros Ht Ha Hsd Hv.
  pose proof (loop_body_ok W c bag st t a sd Ht Ha Hsd) as Hrun.
  unfold job_trace in Hrun. rewrite (truthy_nonzero _ Hv) in Hrun.
  eexists. split; [exact Hrun|]. split; [reflexivity|]. split; [|split; [|split]].
  - cbn [app commands In]. intros [H|[H|[]]]; discriminate H.
  - by rewrite for_each_cons, Hrun.
  - intros ->. by rewrite for_each_cons, Hrun.
  - intros next rest' t' a' sd' -> Ht' Ha' Hsd'.
    rewrite for_each_cons, Hrun, for_each_cons.
    match goal with |- context [extend st ?l] => set (evs := l) end.
    rewrite (loop_body_ok W c next (extend st evs) t' a' sd' Ht' Ha' Hsd').
    destruct (for_each_loop_events W c rest'
                (extend (extend st evs) (job_trace W c t' a' sd' (extend st evs))))
      as (o & later & Hlater & _).
    rewrite Hlater, !extend_extend.
    exists o, later. split; reflexivity.
Qed.

(** The first shipped job with a bag that does not validate, followed by
    the other two jobs: the loop goes on with the second job, which is
    bagged, validated and uploaded. *)
Lemma validate_failure_skips_upload_witness :
  exists evs o later,
    loop_body (answers [0; 2]%Z) shipped test_bag_1 (start ∅) = (Returned tt, extend (start ∅) evs)
    /\ console evs = [ "Bagged: test_bag_1"; "ERROR VALIDATING: test_bag_1" ]
    /\ length (commands evs) = 2%nat
    /\ for_each (loop_body (answers [0; 2]%Z) shipped) shipped_jobs (start ∅)
       = (o, extend (start ∅)
               (evs
                ++ job_trace (answers [0; 2]%Z) shipped "Bag 2" "Consortia"
                     "/home/emory/aptrust/testing_files/testing_input/test_bag_2"
                     (extend (start ∅) evs)
                ++ later))
    /\ console (job_trace (answers [0; 2]%Z) shipped "Bag 2" "Consortia"
                  "/home/emory/aptrust/testing_files/testing_input/test_bag_2"
                  (extend (start ∅) evs))
       = [ "Bagged: test_bag_2"; "Validated: test_bag_2"; "Uploaded: test_bag_2";
           "Bagged, Validated, Uploaded: test_bag_2" ].
Proof.
  destruct (validate_failure_skips_upload (answers [0; 2]%Z) shipped test_bag_1 (start ∅)
              "Bag 1" "Institution"
              "/home/emory/aptrust/testing_files/testing_input/test_bag_1"
              (tail shipped_jobs))
    as (evs & Hrun & Hevs & _ & _ & _ & Hnext); [reflexivity .. | discriminate |].
  destruct (Hnext (hd ∅ (tail shipped_jobs)) (tail (tail shipped_jobs))
              "Bag 2" "Consortia"
              "/home/emory/aptrust/testing_files/testing_input/test_bag_2")
    as (o & later & Hloop & _); [reflexivity ..|].
  exists evs, o, later. split; [exact Hrun|].
  split; [by rewrite Hevs|]. split; [by rewrite Hevs|].
  split; [exact Hloop | by rewrite Hevs].
Defined.

(** C3. For every job, if the create subprocess returns a non-zero code,
    the body prints "ERROR CREATING: <bag_name>" and its next effect is the
    validate subprocess of that job. *)
Theorem create_failure_still_validates
    (W : World) (c : Config) (bag : dict) (st : State) (t a sd : string) :
  bag !! "title" = Some t -> bag !! "access" = Some a -> bag !! "source_dir" = Some sd ->
  returncode (create_result W c t a sd st) <> 0%Z ->
  exists after,
    loop_body W c bag st =
      (Returned tt,
       extend st
         ([ EvRun (create_command c t a sd) (environ st) (create_result W c t a sd st);
            EvPrint ("ERROR CREATING: " +:+ bag_name sd);
            EvRun (validate_command c sd) (environ st) (validate_result W c sd st) ]
          ++ after)).
Proof.
  intros Ht Ha Hsd Hc.
  rewrite (loop_body_ok W c bag st t a sd Ht Ha Hsd).
  unfold job_trace, create_line. rewrite (truthy_nonzero _ Hc). eauto.
Qed.

(** The first shipped job when [apt-cmd bag create] fails with code 1. *)
Lemma create_failure_still_validates_witness :
  exists after,
    loop_body (answers [1]%Z) shipped test_bag_1 (start ∅) =
      (Returned tt,
       extend (start ∅)
         ([ EvRun (create_command shipped "Bag 1" "Institution"
                     "/home/emory/aptrust/testing_files/testing_input/test_bag_1") ∅
              (create_result (answers [1]%Z) shipped "Bag 1" "Institution"
                 "/home/emory/aptrust/testing_files/testing_input/test_bag_1" (start ∅));
            EvPrint "ERROR CREATING: test_bag_1";
            EvRun (validate_command shipped
                     "/home/emory/aptrust/testing_files/testing_input/test_bag_1") ∅
              (validate_result (answers [1]%Z) shipped
                 "/home/emory/aptrust/testing_files/testing_input/test_bag_1" (start ∅)) ]
          ++ after)).
Proof.
  apply (create_failure_still_validates (answers [1]%Z) shipped test_bag_1 (start ∅)
           "Bag 1" "Institution"
           "/home/emory/aptrust/testing_files/testing_input/test_bag_1");
    [reflexivity .. | discriminate].
Defined.

(** C4. The derived bag name is meant to be the last path segment of
    [source_dir], the substring after the final '/'.  Lines 50-51 miss two
    cases.  For a path that ends in '/', [find] answers [0], and
    [source_dir[-0::]] is the whole path, not the empty segment after the
    final '/'.  For a path without '/', [find] answers [-1], and
    [source_dir[1::]] drops the first character of the only segment. *)
Theorem bag_name_misses_cases :
  bag_name "/home/emory/aptrust/testing_files/testing_input/test_bag_1/"
    = "/home/emory/aptrust/testing_files/testing_input/test_bag_1/"
  /\ last_segment "/home/emory/aptrust/testing_files/testing_input/test_bag_1/" = ""
  /\ bag_name "test_bag_1" = "est_bag_1"
  /\ last_segment "test_bag_1" = "test_bag_1".
Proof. repeat split; reflexivity. Qed.

(** C5 as stated fails: the command is a plain concatenation, and a value
    that itself holds the text of the flag brings a second [--bag-dir] into
    it.  Here the title of the job does, and the create command the body
    runs has two. *)
Lemma create_command_second_bag_dir :
  head (commands (trace (snd (loop_body (answers []) shipped quoted_title_job (start ∅)))))
    = Some (create_command shipped "Bag 1' --bag-dir=/tmp '" "Institution"
              "/home/emory/aptrust/testing_files/testing_input/test_bag_1")
  /\ occurrences "--bag-dir"
       (create_command shipped "Bag 1' --bag-dir=/tmp '" "Institution"
          "/home/emory/aptrust/testing_files/testing_input/test_bag_1") = 2%nat.
Proof. split; reflexivity. Qed.

(** C5, amended.  For every job none of whose values (profile, manifest
    algorithms, output directory, source directory, source organization,
    title, access, storage option) holds the text [--bag-dir], the create
    command contains [--bag-dir] exactly once.  For every job, with no
    condition on its values, the command contains the flag
    [ --bag-dir=<source_dir>] followed by the blank before the next flag, and
    the tag flags of Source-Organization, Title, Access and Storage-Option
    with the configured source organization, the job's title, the job's
    access and the configured storage option. *)
Theorem create_command_flags (c : Config) (t a sd : string) :
  (Forall (fun v => occurrences "--bag-dir" v = 0%nat) (create_values c t a sd) ->
   occurrences "--bag-dir" (create_command c t a sd) = 1%nat)
  /\ occurs (" --bag-dir=" +:+ sd +:+ " ") (create_command c t a sd)
  /\ occurs (" --tags='bag-info.txt/Source-Organization=" +:+ source_organization c +:+ "'")
       (create_command c t a sd)
  /\ occurs (" --tags='aptrust-info.txt/Title=" +:+ t +:+ "'") (create_command c t a sd)
  /\ occurs (" --tags='aptrust-info.txt/Access=" +:+ a +:+ "'") (create_command c t a sd)
  /\ occurs (" --tags='aptrust-info.txt/Storage-Option=" +:+ storage_option c +:+ "'")
       (create_command c t a sd).
Proof.
  split; [|repeat split].
  - intros Hfree. unfold create_values in Hfree.
    repeat (apply Forall_cons in Hfree as [? Hfree]).
    rewrite occurrences_create_command.
    destruct (bag_name_skip sd) as [n ->].
    pose proof (occurrences_skip "--bag-dir" n sd). lia.
  - exists ("apt-cmd bag create" +:+ profile_full c +:+ manifest_algs' c +:+ output_file c
            +:+ bag_name sd +:+ ".tar"),
           ("--tags='bag-info.txt/Source-Organization=" +:+ source_organization c +:+ "'"
            +:+ title t +:+ access a +:+ storage_option' c).
    unfold create_command, bag_dir, source_organization'.
    rewrite !append_assoc. reflexivity.
  - exists ("apt-cmd bag create" +:+ profile_full c +:+ manifest_algs' c +:+ output_file c
            +:+ bag_name sd +:+ ".tar" +:+ bag_dir sd),
           (title t +:+ access a +:+ storage_option' c).
    unfold create_command, source_organization'. rewrite !append_assoc. reflexivity.
  - exists ("apt-cmd bag create" +:+ profile_full c +:+ manifest_algs' c +:+ output_file c
            +:+ bag_name sd +:+ ".tar" +:+ bag_dir sd +:+ source_organization' c),
           (access a +:+ storage_option' c).
    unfold create_command, title. rewrite !append_assoc. reflexivity.
  - exists ("apt-cmd bag create" +:+ profile_full c +:+ manifest_algs' c +:+ output_file c
            +:+ bag_name sd +:+ ".tar" +:+ bag_dir sd +:+ source_organization' c +:+ title t),
           (storage_option' c).
    unfold create_command, access. rewrite !append_assoc. reflexivity.
  - exists ("apt-cmd bag create" +:+ profile_full c +:+ manifest_algs' c +:+ output_file c
            +:+ bag_name sd +:+ ".tar" +:+ bag_dir sd +:+ source_organization' c +:+ title t
            +:+ access a),
           "".
    unfold create_command, storage_option'. rewrite !append_assoc, ?append_nil_r. reflexivity.
Qed.

(** The first shipped job under the shipped configuration. *)
Lemma create_command_flags_witness :
  occurrences "--bag-dir"
    (create_command shipped "Bag 1" "Institution"
       "/home/emory/aptrust/testing_files/testing_input/test_bag_1") = 1%nat
  /\ occurs " --bag-dir=/home/emory/aptrust/testing_files/testing_input/test_bag_1 "
       (create_command shipped "Bag 1" "Institution"
          "/home/emory/aptrust/testing_files/testing_input/test_bag_1").
Proof.
  destruct (create_command_flags shipped "Bag 1" "Institution"
              "/home/emory/aptrust/testing_files/testing_input/test_bag_1")
    as (Hone & Hdir & _).
  split; [apply Hone; repeat constructor | exact Hdir].
Defined.

(** C9. For every job, the validate command and the upload command end in
    the same tar file path, [output_dir], "/", [bag_name], ".tar", and that
    path is the value of the create command's [--output-file] flag; these
    are the commands the body runs. *)
Theorem one_tar_path
    (W : World) (c : Config) (bag : dict) (st : State) (t a sd : string) :
  bag !! "title" = Some t -> bag !! "access" = Some a -> bag !! "source_dir" = Some sd ->
  exists evs before after,
    loop_body W c bag st = (Returned tt, extend st evs)
    /\ create_command c t a sd
       = before +:+ " --output-file=" +:+ tar_path c sd +:+ " --bag-dir=" +:+ after
    /\ validate_command c sd
       = "apt-cmd bag validate -p " +:+ profile c +:+ " " +:+ tar_path c sd
    /\ upload_command c sd
       = "apt-cmd s3 upload --host=s3.amazonaws.com --bucket=" +:+ dquote +:+ bucket_name c
         +:+ dquote +:+ " " +:+ tar_path c sd
    /\ (commands evs = [ create_command c t a sd; validate_command c sd ]
        \/ commands evs
           = [ create_command c t a sd; validate_command c sd; upload_command c sd ]).
Proof.
  intros Ht Ha Hsd.
  exists (job_trace W c t a sd st),
    ("apt-cmd bag create" +:+ profile_full c +:+ manifest_algs' c),
    (sd +:+ source_organization' c +:+ title t +:+ access a +:+ storage_option' c).
  split; [by apply loop_body_ok|]. repeat split.
  - unfold create_command, output_file, tar_path, bag_dir.
    rewrite !append_assoc. reflexivity.
  - unfold job_trace.
    destruct (Py.truthy (returncode (validate_result W c sd st))); cbn; auto.
Qed.

(** The tar file of the first shipped job. *)
Lemma one_tar_path_witness :
  exists evs before after,
    loop_body all_ok shipped test_bag_1 (start ∅) = (Returned tt, extend (start ∅) evs)
    /\ create_command shipped "Bag 1" "Institution"
         "/home/emory/aptrust/testing_files/testing_input/test_bag_1"
       = before
         +:+ " --output-file=/home/emory/aptrust/testing_files/testing_output/test_bag_1.tar"
         +:+ " --bag-dir=" +:+ after
    /\ validate_command shipped "/home/emory/aptrust/testing_files/testing_input/test_bag_1"
       = "apt-cmd bag validate -p aptrust "
         +:+ "/home/emory/aptrust/testing_files/testing_output/test_bag_1.tar".
Proof.
  destruct (one_tar_path all_ok shipped test_bag_1 (start ∅) "Bag 1" "Institution"
              "/home/emory/aptrust/testing_files/testing_input/test_bag_1")
    as (evs & before & after & Hrun & Hcreate & Hvalidate & _); [reflexivity ..|].
  exists evs, before, after. split; [exact Hrun|]. split; [exact Hcreate | exact Hvalidate].
Defined.

(** C6 as stated fails: a job whose three steps succeed prints four lines,
    the fourth being the summary after the upload. *)
Lemma summary_line_is_extra :
  ~ one_line_per_step (trace (snd (loop_body all_ok shipped test_bag_1 (start ∅)))).
Proof. intros H. discriminate H. Qed.

(** C6, amended.  For every job and every step executed for it, the script
    prints exactly one console line that tells the step's success or
    failure; the only other line a job can print is the summary
    "Bagged, Validated, Uploaded: <bag_name>", which comes after the lines
    of the steps, is printed when the three steps succeeded and is not
    printed when validation failed. *)
Theorem one_line_per_step_and_summary
    (W : World) (c : Config) (bag : dict) (st : State) (t a sd : string) :
  bag !! "title" = Some t -> bag !! "access" = Some a -> bag !! "source_dir" = Some sd ->
  exists evs extra,
    loop_body W c bag st = (Returned tt, extend st evs)
    /\ console evs
       = zip_with (status_line (bag_name sd)) [Create; Validate; Upload] (returncodes evs)
         ++ extra
    /\ length (zip_with (status_line (bag_name sd)) [Create; Validate; Upload]
                 (returncodes evs)) = ncalls evs
    /\ (extra = [] \/ extra = [ "Bagged, Validated, Uploaded: " +:+ bag_name sd ])
    /\ (Forall (fun rc => rc = 0%Z) (returncodes evs) ->
        ncalls evs = 3%nat
        /\ extra = [ "Bagged, Validated, Uploaded: " +:+ bag_name sd ])
    /\ (returncode (validate_result W c sd st) <> 0%Z -> extra = []).
Proof.
  intros Ht Ha Hsd.
  exists (job_trace W c t a sd st).
  exists (if Py.truthy (returncode (validate_result W c sd st)) then []
          else [ "Bagged, Validated, Uploaded: " +:+ bag_name sd ]).
  split; [by apply loop_body_ok|].
  unfold job_trace, create_line, upload_line, status_line, ncalls.
  destruct (Py.truthy (returncode (validate_result W c sd st))) eqn:Hv;
    cbn [app console returncodes commands zip_with length];
    rewrite ?Hv; (split; [reflexivity|]); (split; [reflexivity|]); (split; [auto|]); split.
  - intros Hall. apply Forall_cons in Hall as [_ Hall].
    apply Forall_cons in Hall as [Hzero _].
    by rewrite (truthy_zero _ Hzero) in Hv.
  - reflexivity.
  - auto.
  - intros Hnz. by rewrite (truthy_nonzero _ Hnz) in Hv.
Qed.

(** The first shipped job when every step succeeds: three status lines and
    the summary. *)
Lemma one_line_per_step_and_summary_witness :
  exists evs extra,
    loop_body all_ok shipped test_bag_1 (start ∅) = (Returned tt, extend (start ∅) evs)
    /\ console evs
       = zip_with (status_line "test_bag_1") [Create; Validate; Upload] (returncodes evs)
         ++ extra
    /\ (extra = [] \/ extra = [ "Bagged, Validated, Uploaded: test_bag_1" ]).
Proof.
  destruct (one_line_per_step_and_summary all_ok shipped test_bag_1 (start ∅)
              "Bag 1" "Institution"
              "/home/emory/aptrust/testing_files/testing_input/test_bag_1")
    as (evs & extra & Hrun & Hlines & _ & Hextra & _); [reflexivity ..|].
  exists evs, extra. split; [exact Hrun|]. split; [exact Hlines | exact Hextra].
Defined.

(** C7. Whatever the subprocesses return, the script over jobs that have
    their three keys raises no exception and ends after the last job; the
    commands it ran are, job after job in the order of the list, the create
    and the validate command of the job and then its upload command or
    nothing: every job is visited, none twice, and no command is run
    again. *)
Theorem script_runs_to_completion (W : World) (c : Config) (env : dict) :
  Forall job_ok (jobs c) ->
  exists st' visits,
    script W c (start env) = (Returned tt, st')
    /\ commands (trace st') = concat visits
    /\ Forall2 (job_commands c) (jobs c) visits.
Proof.
  intros Hok. rewrite script_eq.
  edestruct (for_each_visits W c (jobs c)) as (evs & visits & Hrun & Hcmds & Hall);
    [exact Hok|].
  rewrite Hrun. eexists _, visits. split; [reflexivity|]. split; [|exact Hall].
  cbn [extend trace]. by rewrite commands_app.
Qed.

(** The shipped configuration in a world where every subprocess fails with
    code 1: two calls per job, six in all, and the script still returns. *)
Lemma script_runs_to_completion_witness :
  exists st' visits,
    script (answers [1; 1; 1; 1; 1; 1; 1; 1; 1]%Z) shipped (start ∅) = (Returned tt, st')
    /\ commands (trace st') = concat visits
    /\ Forall2 (job_commands shipped) shipped_jobs visits.
Proof.
  apply (script_runs_to_completion (answers [1; 1; 1; 1; 1; 1; 1; 1; 1]%Z) shipped ∅).
  repeat constructor; eexists; reflexivity.
Defined.

(** C8. The script assigns APTRUST_AWS_KEY and APTRUST_AWS_SECRET once, as
    its first two effects, before any subprocess call; nothing after them
    assigns to the environment; and every subprocess of the run inherits
    the environment with the two configured values in it. *)
Theorem credentials_set_once (W : World) (c : Config) (env : dict) :
  exists evs,
    trace (snd (script W c (start env)))
      = [ EvSetenv "APTRUST_AWS_KEY" (aws_access_key c);
          EvSetenv "APTRUST_AWS_SECRET" (aws_secret_key c) ] ++ evs
    /\ Forall (fun e => is_setenv e = false) evs
    /\ forall cmd env' result,
         In (EvRun cmd env' result) (trace (snd (script W c (start env)))) ->
         env' !! "APTRUST_AWS_KEY" = Some (aws_access_key c)
         /\ env' !! "APTRUST_AWS_SECRET" = Some (aws_secret_key c).
Proof.
  rewrite script_eq.
  edestruct (for_each_loop_events W c (jobs c)) as (o & evs & Hrun & Hall).
  rewrite Hrun. cbn [snd extend trace environ] in *.
  exists evs. split; [reflexivity|]. split.
  - eapply Forall_impl; [exact Hall|]. by intros [].
  - intros cmd env' result [Hin|[Hin|Hin]]; [discriminate Hin ..|].
    rewrite Forall_forall in Hall. apply list_elem_of_In, Hall in Hin.
    cbn [loop_event] in Hin. subst env'. split.
    + rewrite lookup_insert_ne by done. apply lookup_insert_eq.
    + apply lookup_insert_eq.
Qed.

(** C10. Two runs of the script under one configuration, in any two worlds
    (other output of the children, another starting environment): when
    the subprocess calls of the two runs return the same codes in the same
    order, the runs print the same lines in the same order, and end the
    same way. *)
Theorem console_determined_by_returncodes
    (W1 W2 : World) (c : Config) (env1 env2 : dict) :
  returncodes (trace (snd (script W1 c (start env1))))
    = returncodes (trace (snd (script W2 c (start env2)))) ->
  console (trace (snd (script W1 c (start env1))))
    = console (trace (snd (script W2 c (start env2))))
  /\ fst (script W1 c (start env1)) = fst (script W2 c (start env2)).
Proof.
  rewrite !script_eq.
  edestruct (for_each_console W1 W2 c (jobs c))
    as (o1 & o2 & evs1 & evs2 & Hrun1 & Hrun2 & Hsame).
  rewrite Hrun1, Hrun2. cbn [fst snd extend trace].
  rewrite !returncodes_app, !console_app. cbn [returncodes console app].
  exact Hsame.
Qed.

(** The shipped configuration, with a second bag that does not validate,
    in a silent and in a noisy world, started in different environments. *)
Lemma console_determined_by_returncodes_witness :
  console (trace (snd (script (answers [0; 0; 3; 0; 1]%Z) shipped (start ∅))))
    = console (trace (snd (script (noisy [0; 0; 3; 0; 1]%Z) shipped
                             (start {[ "HOME" := "/home/emory" ]}))))
  /\ fst (script (answers [0; 0; 3; 0; 1]%Z) shipped (start ∅))
     = fst (script (noisy [0; 0; 3; 0; 1]%Z) shipped (start {[ "HOME" := "/home/emory" ]})).
Proof.
  apply (console_determined_by_returncodes (answers [0; 0; 3; 0; 1]%Z)
           (noisy [0; 0; 3; 0; 1]%Z) shipped ∅ {[ "HOME" := "/home/emory" ]}).
  vm_compute. reflexivity.
Defined.

(** * Further properties of the script *)

(** ** The bag name, case by case *)

(** X1. For a source directory [dir/segment], with a segment that is not
    empty and has no '/', the bag name is the segment, which is the
    substring after the final '/'. *)
Theorem bag_name_of_dir_segment (dir seg : string) :
  has_char "/" seg = false -> seg <> "" ->
  bag_name (dir +:+ "/" +:+ seg) = seg
  /\ last_segment (dir +:+ "/" +:+ seg) = seg
  /\ has_char "/" (bag_name (dir +:+ "/" +:+ seg)) = false.
Proof.
  intros Hseg Hne.
  destruct (bag_name_after_final_slash dir seg Hseg Hne) as [Hname Hlast].
  change ("/" +:+ seg) with (String "/" seg).
  rewrite Hname, Hlast. auto.
Qed.

Lemma bag_name_of_dir_segment_witness :
  bag_name ("/srv/in/2024" +:+ "/" +:+ "theses") = "theses"
  /\ last_segment ("/srv/in/2024" +:+ "/" +:+ "theses") = "theses"
  /\ has_char "/" (bag_name ("/srv/in/2024" +:+ "/" +:+ "theses")) = false.
Proof.
  apply (bag_name_of_dir_segment "/srv/in/2024" "theses"); [reflexivity | discriminate].
Defined.

(** X2. For every source directory that ends in '/', the bag name is the
    whole path, slashes and all: [find] answers [0] and [[-0::]] slices
    from the start. *)
Theorem bag_name_trailing_slash (path : string) :
  index_slash (path +:+ "/") = 0%Z /\ bag_name (path +:+ "/") = path +:+ "/".
Proof.
  assert (index_slash (path +:+ "/") = 0%Z) as Hindex.
  { unfold index_slash, Py.find, Py.reversed, String.rev.
    rewrite rev_app_append. cbn [String.rev_app Py.find_from Py.startswith].
    by rewrite Ascii.eqb_refl. }
  split; [exact Hindex|].
  unfold bag_name. rewrite Hindex. unfold Py.slice_from.
  change (- 0 <? 0)%Z with false. cbv iota.
  replace (Z.to_nat _) with 0%nat by lia. reflexivity.
Qed.

(** X3. For every source directory without a '/', [find] answers [-1] and
    the bag name is the path without its first character. *)
Theorem bag_name_without_slash (path : string) :
  has_char "/" path = false ->
  index_slash path = (-1)%Z /\ bag_name path = Py.skip 1 path.
Proof.
  intros Hpath.
  assert (index_slash path = (-1)%Z) as Hindex.
  { unfold index_slash, Py.find, Py.reversed, String.rev.
    apply find_from_none. by rewrite has_char_rev_app, Hpath. }
  split; [exact Hindex|].
  unfold bag_name. rewrite Hindex. unfold Py.slice_from.
  change (- -1 <? 0)%Z with false. cbv iota.
  destruct path as [|a path]; [reflexivity|].
  cbn [String.length]. replace (Z.to_nat _) with 1%nat by lia. reflexivity.
Qed.

Lemma bag_name_without_slash_witness :
  index_slash "theses" = (-1)%Z /\ bag_name "theses" = Py.skip 1 "theses".
Proof. apply (bag_name_without_slash "theses"). reflexivity. Defined.

Lemma skip_suffix (n : nat) (s : string) : exists pre, s = pre +:+ Py.skip n s.
Proof.
  revert n. induction s as [|a s IH]; intros [|n]; cbn [Py.skip];
    try (by exists ""). 
  destruct (IH n) as [pre Hpre]. exists (String a pre). by rewrite append_cons, <- Hpre.
Qed.

(** X4. Whatever the source directory, the bag name is an end of it: the
    slice adds and changes no character. *)
Theorem bag_name_suffix (sd : string) :
  exists pre, sd = pre +:+ bag_name sd.
Proof. destruct (bag_name_skip sd) as [n ->]. apply skip_suffix. Qed.

(** ** The flag in the create command *)

(** X5. The create command contains [--bag-dir] exactly once if and only if
    none of the values that enter it contains that text: every occurrence
    inside a value shows in the command. *)
Theorem one_bag_dir_iff (c : Config) (t a sd : string) :
  occurrences "--bag-dir" (create_command c t a sd) = 1%nat
  <-> Forall (fun v => occurrences "--bag-dir" v = 0%nat) (create_values c t a sd).
Proof.
  rewrite occurrences_create_command. unfold create_values.
  destruct (bag_name_skip sd) as [n Hn].
  pose proof (occurrences_skip "--bag-dir" n sd) as Hle. rewrite <- Hn in Hle.
  split.
  - intros Hone. repeat constructor; lia.
  - intros Hfree. repeat (apply Forall_cons in Hfree as [? Hfree]). lia.
Qed.

(** ** Jobs without a key *)

Lemma loop_body_first_missing_key
    (W : World) (c : Config) (bag : dict) (st : State) (key : string) :
  first_missing_key bag = Some key ->
  loop_body W c bag st = (Raised (KeyError key), st).
Proof.
  unfold first_missing_key, loop_body, bind, getitem. intros Hkey.
  destruct (bag !! "title"); [|by simplify_eq].
  destruct (bag !! "access"); [|by simplify_eq].
  destruct (bag !! "source_dir"); [discriminate | by simplify_eq].
Qed.

(** X6. A job that lacks one of the keys makes the body raise [KeyError]
    for the first of "title", "access", "source_dir" that is missing, before
    any subprocess call and any print: the state is the one before, with no
    command run and no line printed for the job. *)
Theorem missing_key_raises (W : World) (c : Config) (bag : dict) (st : State) (key : string) :
  first_missing_key bag = Some key ->
  exists st',
    loop_body W c bag st = (Raised (KeyError key), st')
    /\ st' = st
    /\ commands (trace st') = commands (trace st)
    /\ console (trace st') = console (trace st).
Proof.
  intros Hkey. exists st.
  by rewrite (loop_body_first_missing_key W c bag st key Hkey).
Qed.

Lemma missing_key_raises_witness :
  exists st',
    loop_body all_ok shipped no_access_job (start ∅) = (Raised (KeyError "access"), st')
    /\ st' = start ∅
    /\ commands (trace st') = commands (trace (start ∅))
    /\ console (trace st') = console (trace (start ∅)).
Proof.
  apply (missing_key_raises all_ok shipped no_access_job (start ∅) "access"). reflexivity.
Defined.

Lemma for_each_app {A} (body : A -> M unit) (l1 l2 : list A) (st : State) :
  for_each body (l1 ++ l2) st =
    match for_each body l1 st with
    | (Returned _, st') => for_each body l2 st'
    | (Raised e, st') => (Raised e, st')
    end.
Proof.
  revert st. induction l1 as [|x l1 IH]; intros st; [reflexivity|].
  cbn [app]. rewrite !for_each_cons. destruct (body x st) as [[[]|e] st']; [apply IH | reflexivity].
Qed.

(** X7. The exception ends the run: after jobs that have their keys, a job
    without one makes the script's loop raise [KeyError] with the effects
    of the jobs before it and nothing else; the jobs after it are not
    visited, whatever they are. *)
Theorem key_error_stops_the_loop
    (W : World) (c : Config) (before after : list dict) (bag : dict) (st : State)
    (key : string) :
  Forall job_ok before -> first_missing_key bag = Some key ->
  exists evs,
    for_each (loop_body W c) before st = (Returned tt, extend st evs)
    /\ for_each (loop_body W c) (before ++ bag :: after) st
       = (Raised (KeyError key), extend st evs).
Proof.
  intros Hok Hkey.
  destruct (for_each_visits W c before st Hok) as (evs & _ & Hrun & _).
  exists evs. split; [exact Hrun|].
  rewrite for_each_app, Hrun, for_each_cons.
  by rewrite (loop_body_first_missing_key W c bag (extend st evs) key Hkey).
Qed.

Lemma key_error_stops_the_loop_witness :
  exists evs,
    for_each (loop_body all_ok shipped) [test_bag_1] (start ∅) = (Returned tt, extend (start ∅) evs)
    /\ for_each (loop_body all_ok shipped) ([test_bag_1] ++ no_access_job :: [test_bag_1]) (start ∅)
       = (Raised (KeyError "access"), extend (start ∅) evs).
Proof.
  apply (key_error_stops_the_loop all_ok shipped [test_bag_1] [test_bag_1] no_access_job
           (start ∅) "access").
  - repeat constructor; eexists; reflexivity.
  - reflexivity.
Defined.

(** ** The environment after the run *)

(** X8. When the script ends, normally or by an exception, [os.environ] is
    the environment it started in with the two credentials assigned: both
    variables hold the configured values, whatever they held before, and
    every other variable is as it was. *)
Theorem environ_after_script (W : World) (c : Config) (env : dict) :
  environ (snd (script W c (start env)))
    = <["APTRUST_AWS_SECRET" := aws_secret_key c]> (<["APTRUST_AWS_KEY" := aws_access_key c]> env)
  /\ environ (snd (script W c (start env))) !! "APTRUST_AWS_KEY" = Some (aws_access_key c)
  /\ environ (snd (script W c (start env))) !! "APTRUST_AWS_SECRET" = Some (aws_secret_key c)
  /\ forall name, name <> "APTRUST_AWS_KEY" -> name <> "APTRUST_AWS_SECRET" ->
       environ (snd (script W c (start env))) !! name = env !! name.
Proof.
  rewrite script_eq.
  edestruct (for_each_loop_events W c (jobs c)) as (o & evs & Hrun & _).
  rewrite Hrun. cbn [snd extend environ].
  split; [reflexivity|]. split; [|split].
  - rewrite lookup_insert_ne by done. apply lookup_insert_eq.
  - apply lookup_insert_eq.
  - intros name Hkey Hsecret. by rewrite !lookup_insert_ne.
Qed.

(** ** How much the script does *)

Lemma for_each_counts (W : World) (c : Config) (l : list dict) (st : State) :
  Forall job_ok l ->
  exists evs,
    for_each (loop_body W c) l st = (Returned tt, extend st evs)
    /\ (2 * length l <= ncalls evs <= 3 * length l)%nat
    /\ (length (console evs) + 2 * length l = 2 * ncalls evs)%nat.
Proof.
  intros Hok. revert st. induction Hok as [|bag l Hbag _ IH]; intros st.
  - exists []. rewrite extend_nil. cbn. repeat split; lia.
  - destruct (job_ok_lookup bag Hbag) as (t & a & sd & Ht & Ha & Hsd).
    destruct (IH (extend st (job_trace W c t a sd st))) as (evs & Hrun & Hcalls & Hlines).
    exists (job_trace W c t a sd st ++ evs).
    rewrite for_each_cons, (loop_body_ok W c bag st t a sd Ht Ha Hsd), Hrun, extend_extend.
    split; [reflexivity|].
    rewrite ncalls_app, console_app, length_app. unfold job_trace.
    destruct (Py.truthy (returncode (validate_result W c sd st)));
      cbn [app ncalls commands console length]; unfold ncalls in *; lia.
Qed.

(** X9. Over jobs that have their keys the script makes at least two and at
    most three subprocess calls per job, whatever they return, and prints
    two lines less than twice its calls per job: two lines for a job of two
    calls, four for a job of three. *)
Theorem calls_and_lines_bounded (W : World) (c : Config) (env : dict) :
  Forall job_ok (jobs c) ->
  let t := trace (snd (script W c (start env))) in
  (2 * length (jobs c) <= ncalls t <= 3 * length (jobs c))%nat
  /\ (length (console t) + 2 * length (jobs c) = 2 * ncalls t)%nat.
Proof.
  intros Hok. rewrite script_eq.
  destruct (for_each_counts W c (jobs c)
              {| environ := <["APTRUST_AWS_SECRET" := aws_secret_key c]>
                              (<["APTRUST_AWS_KEY" := aws_access_key c]> env);
                 trace := [ EvSetenv "APTRUST_AWS_KEY" (aws_access_key c);
                            EvSetenv "APTRUST_AWS_SECRET" (aws_secret_key c) ] |} Hok)
    as (evs & Hrun & Hcalls & Hlines).
  rewrite Hrun. cbn [snd extend trace].
  rewrite ncalls_app, console_app. cbn [ncalls commands console app length]. 
  unfold ncalls in *. cbn [length]. lia.
Qed.

Lemma calls_and_lines_bounded_witness :
  let t := trace (snd (script (answers [0; 0; 1; 1; 2]%Z) shipped (start ∅))) in
  (2 * length (jobs shipped) <= ncalls t <= 3 * length (jobs shipped))%nat
  /\ (length (console t) + 2 * length (jobs shipped) = 2 * ncalls t)%nat.
Proof.
  apply (calls_and_lines_bounded (answers [0; 0; 1; 1; 2]%Z) shipped ∅).
  repeat constructor; eexists; reflexivity.
Defined.

(** ** Where the credentials go *)

Lemma public_commands (c1 c2 : Config) :
  same_but_credentials c1 c2 ->
  (forall t a sd, create_command c1 t a sd = create_command c2 t a sd)
  /\ (forall sd, validate_command c1 sd = validate_command c2 sd)
  /\ (forall sd, upload_command c1 sd = upload_command c2 sd).
Proof.
  intros (Hbucket & Hout & Hprofile & Halgs & Horg & Hstorage & _).
  unfold create_command, validate_command, upload_command, profile_full, manifest_algs',
    output_file, source_organization', storage_option'.
  rewrite Hbucket, Hout, Hprofile, Halgs, Horg, Hstorage. auto.
Qed.

Lemma for_each_public
    (W1 W2 : World) (c1 c2 : Config) (l : list dict) (st1 st2 : State) :
  same_but_credentials c1 c2 ->
  exists o1 o2 evs1 evs2,
    for_each (loop_body W1 c1) l st1 = (o1, extend st1 evs1)
    /\ for_each (loop_body W2 c2) l st2 = (o2, extend st2 evs2)
    /\ (returncodes evs1 = returncodes evs2 ->
        commands evs1 = commands evs2 /\ console evs1 = console evs2 /\ o1 = o2).
Proof.
  intros Hsame. destruct (public_commands c1 c2 Hsame) as (Hcreate & Hvalidate & Hupload).
  revert st1 st2. induction l as [|bag l IH]; intros st1 st2.
  - exists (Returned tt), (Returned tt), [], []. rewrite !extend_nil. auto.
  - rewrite !for_each_cons. destruct (decide (job_ok bag)) as [Hbag|Hbag].
    + destruct (job_ok_lookup bag Hbag) as (t & a & sd & Ht & Ha & Hsd).
      destruct (IH (extend st1 (job_trace W1 c1 t a sd st1))
                   (extend st2 (job_trace W2 c2 t a sd st2)))
        as (o1 & o2 & evs1 & evs2 & Hrun1 & Hrun2 & Hrest).
      exists o1, o2, (job_trace W1 c1 t a sd st1 ++ evs1),
        (job_trace W2 c2 t a sd st2 ++ evs2).
      rewrite (loop_body_ok W1 c1 bag st1 t a sd Ht Ha Hsd), Hrun1, extend_extend.
      rewrite (loop_body_ok W2 c2 bag st2 t a sd Ht Ha Hsd), Hrun2, extend_extend.
      split; [reflexivity|]. split; [reflexivity|].
      rewrite !returncodes_app, !console_app, !commands_app.
      unfold job_trace, create_line, upload_line.
      rewrite <- !Hcreate, <- !Hvalidate, <- !Hupload.
      destruct (Py.truthy (returncode (validate_result W1 c1 sd st1))) eqn:Hv1,
               (Py.truthy (returncode (validate_result W2 c2 sd st2))) eqn:Hv2;
        cbn [app returncodes console commands]; intros Hrc; simplify_eq;
        repeat match goal with
               | H : returncode _ = returncode _ |- _ => rewrite H in *
               end;
        try congruence.
      * destruct Hrest as (-> & -> & ->); done.
      * destruct Hrest as (-> & -> & ->); done.
    + destruct (loop_body_key_error c1 bag Hbag) as [key1 Hraise1].
      destruct (loop_body_key_error c2 bag Hbag) as [key2 Hraise2].
      rewrite Hraise1, Hraise2.
      exists (Raised (KeyError key1)), (Raised (KeyError key2)), [], [].
      rewrite !extend_nil. split; [reflexivity|]. split; [reflexivity|].
      intros _. repeat split.
      destruct (first_missing_key bag) as [key|] eqn:Hkey.
      * pose proof (loop_body_first_missing_key W1 c1 bag st1 key Hkey) as H1.
        pose proof (loop_body_first_missing_key W2 c2 bag st2 key Hkey) as H2.
        rewrite Hraise1 in H1. rewrite Hraise2 in H2. congruence.
      * destruct Hbag. unfold first_missing_key in Hkey. unfold job_ok.
        destruct (bag !! "title"), (bag !! "access"), (bag !! "source_dir");
          try discriminate; eauto.
Qed.

(** X10. The credentials reach the children through the environment only.
    Two runs whose configurations differ at most in the access key and the
    secret key, in any two worlds, that receive the same return codes run
    the same command lines and print the same lines: no command line and no
    console line depends on a credential. *)
Theorem credentials_stay_in_environment
    (W1 W2 : World) (c1 c2 : Config) (env1 env2 : dict) :
  same_but_credentials c1 c2 ->
  returncodes (trace (snd (script W1 c1 (start env1))))
    = returncodes (trace (snd (script W2 c2 (start env2)))) ->
  commands (trace (snd (script W1 c1 (start env1))))
    = commands (trace (snd (script W2 c2 (start env2))))
  /\ console (trace (snd (script W1 c1 (start env1))))
     = console (trace (snd (script W2 c2 (start env2)))).
Proof.
  intros Hsame. rewrite !script_eq.
  assert (jobs c1 = jobs c2) as Hjobs by apply Hsame.
  edestruct (for_each_public W1 W2 c1 c2 (jobs c1)) as (o1 & o2 & evs1 & evs2 & Hrun1 & Hrun2 & Hrest);
    [exact Hsame|].
  rewrite <- Hjobs, Hrun1, Hrun2. cbn [snd extend trace].
  rewrite !returncodes_app, !console_app, !commands_app. cbn [returncodes console commands app].
  intros Hrc. destruct (Hrest Hrc) as (Hcmds & Hlines & _). auto.
Qed.

Lemma credentials_stay_in_environment_witness :
  commands (trace (snd (script (answers [0; 0; 1]%Z) shipped (start ∅))))
    = commands (trace (snd (script (answers [0; 0; 1]%Z) with_credentials (start ∅))))
  /\ console (trace (snd (script (answers [0; 0; 1]%Z) shipped (start ∅))))
     = console (trace (snd (script (answers [0; 0; 1]%Z) with_credentials (start ∅)))).
Proof.
  apply (credentials_stay_in_environment (answers [0; 0; 1]%Z) (answers [0; 0; 1]%Z)
           shipped with_credentials ∅ ∅).
  - repeat split.
  - vm_compute. reflexivity.
Defined.

(** ** Jobs that share their last segment *)

(** X11. The output file is named after the bag name alone.  Two source
    directories that end in the same segment, under whatever directories,
    get the same tar path: the same validate and upload command, and the
    same [--output-file] in their create commands. *)
Theorem same_segment_same_tar (c : Config) (dir1 dir2 seg : string) :
  has_char "/" seg = false -> seg <> "" ->
  tar_path c (dir1 +:+ "/" +:+ seg) = output_dir c +:+ "/" +:+ seg +:+ ".tar"
  /\ tar_path c (dir1 +:+ "/" +:+ seg) = tar_path c (dir2 +:+ "/" +:+ seg)
  /\ validate_command c (dir1 +:+ "/" +:+ seg) = validate_command c (dir2 +:+ "/" +:+ seg)
  /\ upload_command c (dir1 +:+ "/" +:+ seg) = upload_command c (dir2 +:+ "/" +:+ seg).
Proof.
  intros Hseg Hne.
  destruct (bag_name_after_final_slash dir1 seg Hseg Hne) as [H1 _].
  destruct (bag_name_after_final_slash dir2 seg Hseg Hne) as [H2 _].
  change ("/" +:+ seg) with (String "/" seg).
  unfold tar_path, validate_command, upload_command. rewrite H1, H2. auto.
Qed.

Lemma same_segment_same_tar_witness :
  tar_path shipped ("/srv/in/2023" +:+ "/" +:+ "theses")
    = output_dir shipped +:+ "/" +:+ "theses" +:+ ".tar"
  /\ tar_path shipped ("/srv/in/2023" +:+ "/" +:+ "theses")
     = tar_path shipped ("/srv/in/2024" +:+ "/" +:+ "theses")
  /\ validate_command shipped ("/srv/in/2023" +:+ "/" +:+ "theses")
     = validate_command shipped ("/srv/in/2024" +:+ "/" +:+ "theses")
  /\ upload_command shipped ("/srv/in/2023" +:+ "/" +:+ "theses")
     = upload_command shipped ("/srv/in/2024" +:+ "/" +:+ "theses").
Proof.
  apply (same_segment_same_tar shipped "/srv/in/2023" "/srv/in/2024" "theses");
    [reflexivity | discriminate].
Defined.

(** ** What reaches the console *)

Lemma status_of_cons (bag : dict) (l : list dict) (line : string) :
  status_of l line -> status_of (bag :: l) line.
Proof.
  intros (message & bag' & sd & Hm & Hbag & Hsd & ->).
  exists message, bag', sd. repeat split; auto. by right.
Qed.

Lemma job_trace_status (W : World) (c : Config) (bag : dict) (l : list dict)
    (t a sd : string) (st : State) :
  bag !! "source_dir" = Some sd ->
  Forall (status_of (bag :: l)) (console (job_trace W c t a sd st)).
Proof.
  intros Hsd.
  assert (forall message, In message messages ->
            status_of (bag :: l) (message +:+ bag_name sd)) as Hline.
  { intros message Hm. exists message, bag, sd. repeat split; auto. by left. }
  unfold job_trace, create_line, upload_line.
  destruct (Py.truthy (returncode (validate_result W c sd st))),
           (Py.truthy (returncode (create_result W c t a sd st))),
           (Py.truthy (returncode (upload_result W c sd st)));
    cbn [app console]; repeat constructor; apply Hline; cbn; tauto.
Qed.

Lemma for_each_status (W : World) (c : Config) (l : list dict) (st : State) :
  exists o evs,
    for_each (loop_body W c) l st = (o, extend st evs)
    /\ Forall (status_of l) (console evs).
Proof.
  revert st. induction l as [|bag l IH]; intros st.
  - exists (Returned tt), []. rewrite extend_nil. split; [reflexivity | constructor].
  - rewrite for_each_cons. destruct (decide (job_ok bag)) as [Hbag|Hbag].
    + destruct (job_ok_lookup bag Hbag) as (t & a & sd & Ht & Ha & Hsd).
      destruct (IH (extend st (job_trace W c t a sd st))) as (o & evs & Hrun & Hall).
      exists o, (job_trace W c t a sd st ++ evs).
      rewrite (loop_body_ok W c bag st t a sd Ht Ha Hsd), Hrun, extend_extend.
      split; [reflexivity|]. rewrite console_app. apply Forall_app. split.
      * by apply job_trace_status.
      * eapply Forall_impl; [exact Hall|]. intros line. apply status_of_cons.
    + destruct (loop_body_key_error c bag Hbag) as [key Hraise]. rewrite Hraise.
      exists (Raised (KeyError key)), []. rewrite extend_nil. split; [reflexivity | constructor].
Qed.

(** X12. Every line the script prints is one of the seven messages followed
    by the bag name of a job of the list, in any world and with any jobs:
    what the children write to their standard output and standard error
    is captured and never reaches the console. *)
Theorem console_holds_status_lines_only (W : World) (c : Config) (env : dict) :
  Forall (status_of (jobs c)) (console (trace (snd (script W c (start env))))).
Proof.
  rewrite script_eq.
  edestruct (for_each_status W c (jobs c)) as (o & evs & Hrun & Hall).
  rewrite Hrun. cbn [snd extend trace]. rewrite console_app. exact Hall.
Qed.
